(** * Sova chatbot API (api/main.py): a shallow embedding and its properties

    The program is one FastAPI module: module-level start-up code (credential
    check, model object), a POST /chat handler that relays a message and the
    caller's history to a hosted model, and a GET / health check.

    The hosted model (google.generativeai) is outside the program.  It is a
    section variable [upstream] below: every theorem holds for whatever the
    provider answers, and what a theorem needs of the provider is written as
    a hypothesis of that theorem. *)

From Stdlib Require Import ZArith Ascii.
From stdpp Require Import base option list strings gmap.

Local Open Scope string_scope.
Local Open Scope Z_scope.
Local Open Scope list_scope.

(** ** Python values the module handles *)

(** [{"text": ...}] is a Python dict, and a provider [Part] is an object whose
    attributes [hasattr] can probe; both are finite maps from names to
    strings. *)
Record Part := { part_attrs : gmap string string }.

Definition hasattr (part : Part) (name : string) : bool :=
  bool_decide (is_Some (part_attrs part !! name)).

Definition getattr (part : Part) (name : string) : option string :=
  part_attrs part !! name.

(** The provider's session turn: [content.role], [content.parts]. *)
Record Content := { content_role : string; content_parts : list Part }.

(** [{"role": entry.role, "parts": parts}], the dict the handler builds for
    [start_chat]. *)
Record ContentDict := {
  dict_role : string;
  dict_parts : list (gmap string string)
}.

(** What is raised inside the handler's [try]: an instance of [Exception]
    (the provider's errors, ValueError, ...), seen through [str(e)], which is
    all the [except] clause reads. *)
Record PyException := { exc_str : string }.

Inductive Result (A : Type) : Type :=
| Ret (a : A)
| Raise (e : PyException).
Arguments Ret {A} a.
Arguments Raise {A} e.

Record Candidate := { finish_reason : Z }.

(** [response.candidates] and the outcome of reading the property
    [response.text]. *)
Record GenerateContentResponse := {
  candidates : list Candidate;
  response_text : Result string
}.

(** [chat_session.history] *)
Record ChatSession := { session_history : list Content }.

(** ** Pydantic models (lines 102-114) *)

Record HistoryPart := { text : string }.

Record HistoryEntry := { role : string; parts : list HistoryPart }.

Record ChatRequest := { message : string; history : list HistoryEntry }.

(** The dict the handler returns: [{"response": ..., "history": ...}]. *)
Record ChatResponse := { response : string; out_history : list HistoryEntry }.

(** ** Module globals *)

(** The arguments of [app.add_middleware(CORSMiddleware, ...)] (lines 17-23). *)
Record CORSMiddleware := {
  allow_origins : list string;
  allow_credentials : bool;
  allow_methods : list string;
  allow_headers : list string
}.

Record FastAPI := {
  title : string;
  description : string;
  version : string;
  user_middleware : list CORSMiddleware
}.

(** Lines 79-84, the integer settings.  [temperature] and [top_p] are binary
    floats that only the provider reads; they are not carried. *)
Record GenerationConfig := {
  top_k : Z;
  max_output_tokens : Z
}.

(** The model object of lines 95-100, with the attributes it has after
    construction.  Its [system_instruction], the persona text of lines
    36-76, is handed to the provider once and never read by the module
    again; it is not carried here. *)
Record GenerativeModel := {
  model_name : string;
  generation_config : GenerationConfig;
  safety_settings : list (string * string)
}.

Record Globals := {
  app : FastAPI;
  GEMINI_API_KEY : string;
  model : GenerativeModel
}.

(** ** Start-up (lines 9-100) *)

(** [load_dotenv()] adds the variables of the .env file to the environment
    and keeps the value of a variable that is already set. *)
Definition load_dotenv (dotenv environ : gmap string string) : gmap string string :=
  environ ∪ dotenv.

Definition getenv (environ : gmap string string) (name : string) : option string :=
  environ !! name.

(** Python's [not x] for [x] that is [None] or a [str]. *)
Definition py_not (x : option string) : bool :=
  match x with
  | None => true
  | Some s => bool_decide (s = "")
  end.

Inductive Startup :=
| SystemExit (code : Z) (stdout : list string)
| Started (g : Globals).

(** Lines 11-23. *)
Definition sova_app : FastAPI :=
  {| title := "Sova Chatbot API";
     description := "SovaCore's official AI assistant. Headless API for web integration.";
     version := "1.0.0";
     user_middleware :=
       [ {| allow_origins := ["*"];
            allow_credentials := true;
            allow_methods := ["*"];
            allow_headers := ["*"] |} ] |}.

Fixpoint has_slash (s : string) : bool :=
  match s with
  | EmptyString => false
  | String c s => if Ascii.eqb c "/"%char then true else has_slash s
  end.

(** The provider's constructor: a model name given without a path is kept
    under "models/".  This is the value the attribute [model.model_name]
    has when line 166 reads it. *)
Definition make_model_name (name : string) : string :=
  if has_slash name then name else "models/" +:+ name.

(** Lines 79-100. *)
Definition gemini_model : GenerativeModel :=
  {| model_name := make_model_name "gemini-2.5-flash";
     generation_config := {| top_k := 60; max_output_tokens := 1024 |};
     safety_settings :=
       [("HARM_CATEGORY_HARASSMENT", "BLOCK_MEDIUM_AND_ABOVE");
        ("HARM_CATEGORY_HATE_SPEECH", "BLOCK_MEDIUM_AND_ABOVE");
        ("HARM_CATEGORY_SEXUALLY_EXPLICIT", "BLOCK_MEDIUM_AND_ABOVE");
        ("HARM_CATEGORY_DANGEROUS_CONTENT", "BLOCK_MEDIUM_AND_ABOVE")] |}.

(** The module body, top to bottom: the app, the credential check with
    [exit(1)], the model. *)
Definition startup (dotenv environ : gmap string string) : Startup :=
  let environ := load_dotenv dotenv environ in
  let app := sova_app in
  let GEMINI_API_KEY := getenv environ "GEMINI_API_KEY" in
  if py_not GEMINI_API_KEY then
    SystemExit 1
      ["ERROR: GEMINI_API_KEY environment variable not set. Please configure it."]
  else
    let model := gemini_model in
    Started {| app := app;
               GEMINI_API_KEY := default "" GEMINI_API_KEY;
               model := model |}.

(** ** The process while it serves *)

(** What a handler does that the outside can see. *)
Inductive Event :=
| Printed (line : string)
| StartChat (history : list ContentDict)
| SendMessage (seeded : list Content) (message : string).

Record World := { globals : Globals; trace : list Event }.

Definition emit (ev : Event) (w : World) : World :=
  {| globals := globals w; trace := trace w ++ [ev] |}.

(** Code inside the [try]: it reads and extends the world and returns or
    raises. *)
Definition M (A : Type) : Type := World → Result A * World.

Global Instance M_ret : MRet M := λ A a w, (Ret a, w).

Global Instance M_bind : MBind M := λ A B f m w,
  match m w with
  | (Ret a, w') => f a w'
  | (Raise e, w') => (Raise e, w')
  end.

(** What the framework sends back: the returned body with status 200, or the
    [HTTPException] raised by the handler. *)
Inductive Reply (A : Type) : Type :=
| Returned (body : A)
| HTTPException (status_code : Z) (detail : string).
Arguments Returned {A} body.
Arguments HTTPException {A} status_code detail.

Definition status {A} (r : Reply A) : Z :=
  match r with
  | Returned _ => 200
  | HTTPException code _ => code
  end.

Definition Endpoint (A : Type) : Type := World → Reply A * World.

(** [try: body  except Exception as e: handler e] where the handler ends by
    raising an [HTTPException]. *)
Definition try_except {A} (body : M A) (handler : PyException → Endpoint A) : Endpoint A :=
  λ w, match body w with
       | (Ret a, w') => (Returned a, w')
       | (Raise e, w') => handler e w'
       end.

Definition print {A} (line : string) (k : Endpoint A) : Endpoint A :=
  λ w, k (emit (Printed line) w).

Definition raise_HTTPException {A} (status_code : Z) (detail : string) : Endpoint A :=
  λ w, (HTTPException status_code detail, w).

(** ** The provider *)

Record Provider := {
  start_chat : GenerativeModel → list ContentDict → Result ChatSession;
  send_message : ChatSession → string → Result (GenerateContentResponse * ChatSession)
}.

(** How the provider's session holds a turn it was seeded with: the dict's
    keys are the attributes of the part object. *)
Definition to_content (d : ContentDict) : Content :=
  {| content_role := dict_role d;
     content_parts := Build_Part <$> dict_parts d |}.

Definition to_contents (ds : list ContentDict) : list Content := to_content <$> ds.

Definition text_part (s : string) : Part := {| part_attrs := {[ "text" := s ]} |}.

(** ** POST /chat (lines 116-156) *)

(** Lines 123-128. *)
Definition to_genai_entry (entry : HistoryEntry) : ContentDict :=
  {| dict_role := role entry;
     dict_parts := (λ p_part, {[ "text" := text p_part ]}) <$> parts entry |}.

Definition to_genai_history (h : list HistoryEntry) : list ContentDict :=
  to_genai_entry <$> h.

(** Line 137: [response.candidates and response.candidates[0].finish_reason == 4]. *)
Definition safety_blocked (r : GenerateContentResponse) : bool :=
  match candidates r with
  | [] => false
  | c :: _ => bool_decide (finish_reason c = 4)
  end.

Definition refusal : string :=
  "I'm sorry, I cannot respond to that query due to safety concerns. Please try rephrasing your question.".

(** Line 147: [[HistoryPart(text=part.text) for part in content.parts if hasattr(part, 'text')]]. *)
Definition parts_list (content : Content) : list HistoryPart :=
  omap (λ part, if hasattr part "text" then Build_HistoryPart <$> getattr part "text" else None)
       (content_parts content).

(** Lines 145-148. *)
Definition to_entry (content : Content) : HistoryEntry :=
  {| role := content_role content; parts := parts_list content |}.

Definition to_updated_history (h : list Content) : list HistoryEntry := to_entry <$> h.

Section Handlers.

Variable upstream : Provider.

Definition model_start_chat (genai_history : list ContentDict) : M ChatSession :=
  λ w, (start_chat upstream (model (globals w)) genai_history,
        emit (StartChat genai_history) w).

Definition chat_session_send_message (chat_session : ChatSession) (msg : string)
  : M (GenerateContentResponse * ChatSession) :=
  λ w, (send_message upstream chat_session msg,
        emit (SendMessage (session_history chat_session) msg) w).

Definition read_text (r : GenerateContentResponse) : M string :=
  λ w, (response_text r, w).

Definition chat_body (request : ChatRequest) : M ChatResponse :=
  let genai_history := to_genai_history (history request) in
  chat_session ← model_start_chat genai_history;
  '(resp, chat_session) ← chat_session_send_message chat_session (message request);
  if safety_blocked resp then
    mret {| response := refusal; out_history := history request |}
  else
    let updated_history := to_updated_history (session_history chat_session) in
    reply ← read_text resp;
    mret {| response := reply; out_history := updated_history |}.

Definition chat_with_sova (request : ChatRequest) : Endpoint ChatResponse :=
  try_except (chat_body request)
    (λ e, print ("An error occurred during chat processing: " +:+ exc_str e)
            (raise_HTTPException 500 ("Internal server error: " +:+ exc_str e))).

(** ** GET / (lines 158-167) *)

Record Descriptor := { d_message : string; d_version : string; d_model : string }.

Definition root : Endpoint Descriptor :=
  λ w, (Returned {| d_message := "Sova Chatbot API is running. Use the /chat endpoint to interact.";
                    d_version := version (app (globals w));
                    d_model := model_name (model (globals w)) |}, w).

End Handlers.

(** ** The serving loop and the process *)

Inductive HttpRequest :=
| POST_chat (body : ChatRequest)
| GET_root.

Inductive Body :=
| ChatBody (r : ChatResponse)
| RootBody (d : Descriptor).

Definition reply_map {A B} (f : A → B) (r : Reply A) : Reply B :=
  match r with
  | Returned a => Returned (f a)
  | HTTPException code detail => HTTPException code detail
  end.

Definition route (upstream : Provider) (rq : HttpRequest) : Endpoint Body :=
  λ w, match rq with
       | POST_chat body => let '(r, w') := chat_with_sova upstream body w in (reply_map ChatBody r, w')
       | GET_root => let '(r, w') := root w in (reply_map RootBody r, w')
       end.

(** Requests are handled one after the other: the handlers never await. *)
Fixpoint serve (upstream : Provider) (rqs : list HttpRequest) (w : World)
  : list (Reply Body) * World :=
  match rqs with
  | [] => ([], w)
  | rq :: rqs =>
      let '(r, w') := route upstream rq w in
      let '(rs, w'') := serve upstream rqs w' in
      (r :: rs, w'')
  end.

Inductive Run :=
| Exited (code : Z) (stdout : list string)
| Served (replies : list (Reply Body)) (final : World).

(** The process: import the module, then serve if the import finished. *)
Definition main (dotenv environ : gmap string string) (upstream : Provider)
    (rqs : list HttpRequest) : Run :=
  match startup dotenv environ with
  | SystemExit code out => Exited code out
  | Started g =>
      let '(rs, w) := serve upstream rqs {| globals := g; trace := [] |} in
      Served rs w
  end.

(** ** Providers to run the handlers on *)

Definition user_content (msg : string) : Content :=
  {| content_role := "user"; content_parts := [text_part msg] |}.

Definition model_content (reply : string) : Content :=
  {| content_role := "model"; content_parts := [text_part reply] |}.

(** The response [scripted reply reason] returns. *)
Definition scripted_response (reply : string) (reason : Z) : GenerateContentResponse :=
  {| candidates := [ {| finish_reason := reason |} ]; response_text := Ret reply |}.

(** Seeds the session with the given turns and answers every message with
    [reply] and the finish reason [reason]. *)
Definition scripted (reply : string) (reason : Z) : Provider :=
  {| start_chat := λ _ h, Ret {| session_history := to_contents h |};
     send_message := λ s msg,
       Ret (scripted_response reply reason,
            {| session_history :=
                 session_history s ++ [user_content msg; model_content reply] |}) |}.

(** The call fails with [e]. *)
Definition failing (e : PyException) : Provider :=
  {| start_chat := λ _ h, Ret {| session_history := to_contents h |};
     send_message := λ _ _, Raise e |}.

(** Returns no candidate; reading the text raises [e]. *)
Definition no_candidates (e : PyException) : Provider :=
  {| start_chat := λ _ h, Ret {| session_history := to_contents h |};
     send_message := λ s msg,
       Ret ({| candidates := []; response_text := Raise e |},
            {| session_history := session_history s ++ [user_content msg] |}) |}.

(** Answers with a turn whose only part is a function call: an object with
    no [text] attribute. *)
Definition tool_calling (reply : string) : Provider :=
  {| start_chat := λ _ h, Ret {| session_history := to_contents h |};
     send_message := λ s msg,
       Ret (scripted_response reply 1,
            {| session_history :=
                 session_history s
                 ++ [user_content msg;
                     {| content_role := "model";
                        content_parts :=
                          [ {| part_attrs := {[ "function_call" := "lookup" ]} |} ] |}] |}) |}.

Definition sample_environ : gmap string string := {[ "GEMINI_API_KEY" := "k" ]}.

Definition sample_globals : Globals :=
  {| app := sova_app; GEMINI_API_KEY := "k"; model := gemini_model |}.

Definition sample_world : World := {| globals := sample_globals; trace := [] |}.

Definition sample_request : ChatRequest :=
  {| message := "What services do you offer?"; history := [] |}.

Definition turn (r t : string) : HistoryEntry :=
  {| role := r; parts := [ {| text := t |} ] |}.

Definition sample_reply : string := "We build agents.".

(** ** Reading a trace *)

(** The turns handed to [start_chat], in the order they were handed over. *)
Fixpoint forwarded (t : list Event) : list ContentDict :=
  match t with
  | [] => []
  | StartChat h :: t => h ++ forwarded t
  | _ :: t => forwarded t
  end.

(** The number of messages sent to the provider. *)
Fixpoint outbound_calls (t : list Event) : nat :=
  match t with
  | [] => O%nat
  | SendMessage _ _ :: t => S (outbound_calls t)
  | _ :: t => outbound_calls t
  end.

(** The [except] clause of the chat handler (lines 154-156), on its own. *)
Definition chat_failure (e : PyException) : Endpoint ChatResponse :=
  λ w, (HTTPException 500 ("Internal server error: " +:+ exc_str e),
        emit (Printed ("An error occurred during chat processing: " +:+ exc_str e)) w).

(** What line 137 takes for a safety block: there is a first candidate and
    its finish reason is 4. *)
Definition signals_safety_block (r : GenerateContentResponse) : Prop :=
  ∃ c cs, candidates r = c :: cs ∧ finish_reason c = 4.

(** A successful exchange, from the provider's side: the session is seeded
    with the turns it was given, the message and the reply become two new
    turns, and the response hands out the reply as its text. *)
Definition answers (upstream : Provider) (g : Globals) (request : ChatRequest)
    (r : GenerateContentResponse) (reply : string) : Prop :=
  ∃ s0 s1,
    start_chat upstream (model g) (to_genai_history (history request)) = Ret s0
    ∧ session_history s0 = to_contents (to_genai_history (history request))
    ∧ send_message upstream s0 (message request) = Ret (r, s1)
    ∧ session_history s1
      = session_history s0 ++ [user_content (message request); model_content reply]
    ∧ response_text r = Ret reply.

(** The provider returns [r] for the request, whatever its session holds. *)
Definition responds (upstream : Provider) (g : Globals) (request : ChatRequest)
    (r : GenerateContentResponse) : Prop :=
  ∃ s0 s1,
    start_chat upstream (model g) (to_genai_history (history request)) = Ret s0
    ∧ send_message upstream s0 (message request) = Ret (r, s1).

(** ** More ways to read a trace, and more providers *)

(** The lines printed, oldest first. *)
Fixpoint printed (t : list Event) : list string :=
  match t with
  | [] => []
  | Printed line :: t => line :: printed t
  | _ :: t => printed t
  end.

(** The histories [start_chat] was called with, one per call. *)
Fixpoint started (t : list Event) : list (list ContentDict) :=
  match t with
  | [] => []
  | StartChat h :: t => h :: started t
  | _ :: t => started t
  end.

(** The messages sent with [send_message], one per call. *)
Fixpoint sent_messages (t : list Event) : list string :=
  match t with
  | [] => []
  | SendMessage _ msg :: t => msg :: sent_messages t
  | _ :: t => sent_messages t
  end.

(** The number of POST /chat requests among [rqs]. *)
Fixpoint chat_requests (rqs : list HttpRequest) : nat :=
  match rqs with
  | [] => O%nat
  | POST_chat _ :: rqs => S (chat_requests rqs)
  | GET_root :: rqs => chat_requests rqs
  end.

(** Every part of every turn is a plain text part. *)
Definition text_only (cs : list Content) : Prop :=
  Forall (λ c, Forall (λ part, ∃ s, part = text_part s) (content_parts c)) cs.

(** [start_chat] itself fails with [e]. *)
Definition rejecting (e : PyException) : Provider :=
  {| start_chat := λ _ _, Raise e;
     send_message := λ _ _, Raise e |}.

(** Answers with two candidates: the first finished normally, the second
    carries finish reason 4. *)
Definition two_candidates (reply : string) : Provider :=
  {| start_chat := λ _ h, Ret {| session_history := to_contents h |};
     send_message := λ s msg,
       Ret ({| candidates := [ {| finish_reason := 1 |}; {| finish_reason := 4 |} ];
               response_text := Ret reply |},
            {| session_history :=
                 session_history s ++ [user_content msg; model_content reply] |}) |}.

(** The provider's finish reasons (the enum Candidate.FinishReason of the
    provider's library).  The module does not name them: line 137 writes the
    number 4. *)
Definition FinishReason_STOP : Z := 1.
Definition FinishReason_SAFETY : Z := 3.
Definition FinishReason_RECITATION : Z := 4.

(** How the provider reports an output that its safety filter suppressed:
    [send_message] raises for the stopped candidate, or, where the response
    is handed over, its first candidate carries the finish reason SAFETY and
    its text cannot be read. *)
Definition suppressed_for_safety (upstream : Provider) (g : Globals)
    (request : ChatRequest) (e : PyException) : Prop :=
  ∃ s0,
    start_chat upstream (model g) (to_genai_history (history request)) = Ret s0
    ∧ (send_message upstream s0 (message request) = Raise e
       ∨ ∃ r s1 c cs,
           send_message upstream s0 (message request) = Ret (r, s1)
           ∧ candidates r = c :: cs
           ∧ finish_reason c = FinishReason_SAFETY
           ∧ response_text r = Raise e).

(** Hands over a response whose only candidate was stopped for safety;
    reading its text raises [e]. *)
Definition safety_finished (e : PyException) : Provider :=
  {| start_chat := λ _ h, Ret {| session_history := to_contents h |};
     send_message := λ s msg,
       Ret ({| candidates := [ {| finish_reason := FinishReason_SAFETY |} ];
               response_text := Raise e |},
            {| session_history := session_history s ++ [user_content msg] |}) |}.

Definition startup_error : string :=
  "ERROR: GEMINI_API_KEY environment variable not set. Please configure it.".

(** * Properties *)

Example scenario_empty_history :
  fst (chat_with_sova (scripted "We build agents." 1) sample_request sample_world)
  = Returned {| response := "We build agents.";
                out_history := [turn "user" "What services do you offer?";
                                turn "model" "We build agents."] |}.
Proof. vm_compute. reflexivity. Qed.

Example scenario_blocked :
  fst (chat_with_sova (scripted "x" 4)
         {| message := "m"; history := [turn "user" "a"; turn "model" "b"] |} sample_world)
  = Returned {| response := refusal; out_history := [turn "user" "a"; turn "model" "b"] |}.
Proof. vm_compute. reflexivity. Qed.

Example scenario_failure :
  fst (chat_with_sova (failing {| exc_str := "quota" |}) sample_request sample_world)
  = HTTPException 500 "Internal server error: quota".
Proof. vm_compute. reflexivity. Qed.

Example scenario_started :
  startup ∅ sample_environ = Started sample_globals.
Proof. vm_compute. reflexivity. Qed.

(** ** The two translations *)

Lemma getattr_text_part s : getattr (text_part s) "text" = Some s.
Proof. unfold getattr, text_part; cbn. by rewrite lookup_singleton_eq. Qed.

Lemma hasattr_spec part name : hasattr part name = true ↔ is_Some (getattr part name).
Proof. unfold hasattr, getattr. by rewrite bool_decide_eq_true. Qed.

Lemma hasattr_false part name : hasattr part name = false ↔ getattr part name = None.
Proof.
  unfold hasattr, getattr. rewrite bool_decide_eq_false.
  by rewrite eq_None_not_Some.
Qed.

(** The comprehension of line 147, part by part. *)
Lemma parts_list_cons part ps r :
  parts_list {| content_role := r; content_parts := part :: ps |}
  = match getattr part "text" with
    | Some s => {| text := s |} :: parts_list {| content_role := r; content_parts := ps |}
    | None => parts_list {| content_role := r; content_parts := ps |}
    end.
Proof.
  unfold parts_list; cbn.
  destruct (hasattr part "text") eqn:Hh.
  - apply hasattr_spec in Hh as [s Hs]. by rewrite Hs.
  - apply hasattr_false in Hh. by rewrite Hh.
Qed.

Lemma parts_list_text_parts r (ps : list HistoryPart) :
  parts_list {| content_role := r;
                content_parts := Build_Part <$> ((λ p_part, {[ "text" := text p_part ]}) <$> ps) |}
  = ps.
Proof.
  induction ps as [|[s] ps IH]; [done|].
  rewrite !fmap_cons, parts_list_cons.
  change (getattr _ "text") with (getattr (text_part s) "text").
  rewrite getattr_text_part. by rewrite IH.
Qed.

Lemma to_entry_to_content entry : to_entry (to_content (to_genai_entry entry)) = entry.
Proof.
  destruct entry as [r ps]. unfold to_entry, to_content, to_genai_entry.
  cbn [content_role dict_role dict_parts role parts].
  by rewrite parts_list_text_parts.
Qed.

Lemma to_updated_history_to_contents h :
  to_updated_history (to_contents (to_genai_history h)) = h.
Proof.
  unfold to_updated_history, to_contents, to_genai_history.
  induction h as [|entry h IH]; [done|].
  rewrite !fmap_cons, to_entry_to_content. by rewrite IH.
Qed.

Lemma to_entry_user_content msg : to_entry (user_content msg) = turn "user" msg.
Proof.
  unfold to_entry, user_content, turn. cbn [content_role]. f_equal.
Qed.

Lemma to_entry_model_content reply : to_entry (model_content reply) = turn "model" reply.
Proof.
  unfold to_entry, model_content, turn. cbn [content_role]. f_equal.
Qed.

(** ** The chat handler, case by case *)

Section Chat.

Variable upstream : Provider.

Lemma chat_start_raises request w e :
  start_chat upstream (model (globals w)) (to_genai_history (history request)) = Raise e →
  chat_with_sova upstream request w
  = chat_failure e (emit (StartChat (to_genai_history (history request))) w).
Proof.
  intros H. unfold chat_with_sova, try_except, chat_body, model_start_chat.
  unfold mbind, M_bind. by rewrite H.
Qed.

Lemma chat_send_raises request w s0 e :
  start_chat upstream (model (globals w)) (to_genai_history (history request)) = Ret s0 →
  send_message upstream s0 (message request) = Raise e →
  chat_with_sova upstream request w
  = chat_failure e
      (emit (SendMessage (session_history s0) (message request))
         (emit (StartChat (to_genai_history (history request))) w)).
Proof.
  intros H0 H1. unfold chat_with_sova, try_except, chat_body, model_start_chat,
    chat_session_send_message.
  unfold mbind, M_bind. by rewrite H0, H1.
Qed.

Lemma chat_blocked request w s0 s1 r :
  start_chat upstream (model (globals w)) (to_genai_history (history request)) = Ret s0 →
  send_message upstream s0 (message request) = Ret (r, s1) →
  safety_blocked r = true →
  chat_with_sova upstream request w
  = (Returned {| response := refusal; out_history := history request |},
     emit (SendMessage (session_history s0) (message request))
       (emit (StartChat (to_genai_history (history request))) w)).
Proof.
  intros H0 H1 Hb. unfold chat_with_sova, try_except, chat_body, model_start_chat,
    chat_session_send_message.
  unfold mbind, M_bind. by rewrite H0, H1, Hb.
Qed.

Lemma chat_text_raises request w s0 s1 r e :
  start_chat upstream (model (globals w)) (to_genai_history (history request)) = Ret s0 →
  send_message upstream s0 (message request) = Ret (r, s1) →
  safety_blocked r = false →
  response_text r = Raise e →
  chat_with_sova upstream request w
  = chat_failure e
      (emit (SendMessage (session_history s0) (message request))
         (emit (StartChat (to_genai_history (history request))) w)).
Proof.
  intros H0 H1 Hb Ht. unfold chat_with_sova, try_except, chat_body, model_start_chat,
    chat_session_send_message, read_text.
  unfold mbind, M_bind. by rewrite H0, H1, Hb, Ht.
Qed.

Lemma chat_replied request w s0 s1 r reply :
  start_chat upstream (model (globals w)) (to_genai_history (history request)) = Ret s0 →
  send_message upstream s0 (message request) = Ret (r, s1) →
  safety_blocked r = false →
  response_text r = Ret reply →
  chat_with_sova upstream request w
  = (Returned {| response := reply;
                 out_history := to_updated_history (session_history s1) |},
     emit (SendMessage (session_history s0) (message request))
       (emit (StartChat (to_genai_history (history request))) w)).
Proof.
  intros H0 H1 Hb Ht. unfold chat_with_sova, try_except, chat_body, model_start_chat,
    chat_session_send_message, read_text.
  unfold mbind, M_bind. by rewrite H0, H1, Hb, Ht.
Qed.

End Chat.

(** ** Line 137 and the provider's signal *)

Lemma safety_blocked_spec r : safety_blocked r = true ↔ signals_safety_block r.
Proof.
  unfold safety_blocked, signals_safety_block.
  destruct (candidates r) as [|c cs].
  - split; [done|]. by intros (c & cs & ? & _).
  - rewrite bool_decide_eq_true. split.
    + intros H. by exists c, cs.
    + intros (c' & cs' & Heq & H). by injection Heq as -> ->.
Qed.

Lemma safety_blocked_not r : safety_blocked r = false ↔ ¬ signals_safety_block r.
Proof. rewrite <- safety_blocked_spec. by destruct (safety_blocked r). Qed.

(** ** What handling a request does to the world *)

(** Handling a request reads the globals and appends events to the trace;
    the reply and the events do not depend on the trace so far. *)
Lemma chat_with_sova_frame upstream g request :
  ∃ reply evs,
    (outbound_calls evs ≤ 1)%nat
    ∧ forwarded evs = to_genai_history (history request)
    ∧ ∀ t, chat_with_sova upstream request {| globals := g; trace := t |}
           = (reply, {| globals := g; trace := t ++ evs |}).
Proof.
  set (gh := to_genai_history (history request)).
  set (printed := λ e, Printed ("An error occurred during chat processing: " +:+ exc_str e)).
  destruct (start_chat upstream (model g) gh) as [s0|e] eqn:H0.
  2:{ eexists _, [StartChat gh; printed e]. split; [cbn; lia|]. split; [cbn; by rewrite app_nil_r|]. intros t.
      rewrite (chat_start_raises _ _ _ e) by done.
      unfold chat_failure, emit; cbn. by rewrite <- app_assoc. }
  set (sent := SendMessage (session_history s0) (message request)).
  destruct (send_message upstream s0 (message request)) as [[r s1]|e] eqn:H1.
  2:{ eexists _, [StartChat gh; sent; printed e]. split; [cbn; lia|]. split; [cbn; by rewrite app_nil_r|]. intros t.
      rewrite (chat_send_raises _ _ _ s0 e) by done.
      unfold chat_failure, emit; cbn. by rewrite <- !app_assoc. }
  destruct (safety_blocked r) eqn:Hb.
  { eexists _, [StartChat gh; sent]. split; [cbn; lia|]. split; [cbn; by rewrite app_nil_r|]. intros t.
    rewrite (chat_blocked _ _ _ s0 s1 r) by done.
    unfold emit; cbn. by rewrite <- app_assoc. }
  destruct (response_text r) as [reply|e] eqn:Ht.
  - eexists _, [StartChat gh; sent]. split; [cbn; lia|]. split; [cbn; by rewrite app_nil_r|]. intros t.
    rewrite (chat_replied _ _ _ s0 s1 r reply) by done.
    unfold emit; cbn. by rewrite <- app_assoc.
  - eexists _, [StartChat gh; sent; printed e]. split; [cbn; lia|]. split; [cbn; by rewrite app_nil_r|]. intros t.
    rewrite (chat_text_raises _ _ _ s0 s1 r e) by done.
    unfold chat_failure, emit; cbn. by rewrite <- !app_assoc.
Qed.

Lemma route_frame upstream g rq :
  ∃ reply evs,
    (outbound_calls evs ≤ 1)%nat
    ∧ ∀ t, route upstream rq {| globals := g; trace := t |}
           = (reply, {| globals := g; trace := t ++ evs |}).
Proof.
  destruct rq as [body|].
  - destruct (chat_with_sova_frame upstream g body) as (reply & evs & Hn & _ & H).
    exists (reply_map ChatBody reply), evs. split; [done|]. intros t.
    unfold route. by rewrite H.
  - eexists _, []. split; [cbn; lia|]. intros t.
    unfold route, root; cbn. by rewrite app_nil_r.
Qed.

Lemma route_reply_any_trace upstream g rq t t' :
  fst (route upstream rq {| globals := g; trace := t |})
  = fst (route upstream rq {| globals := g; trace := t' |}).
Proof.
  destruct (route_frame upstream g rq) as (reply & evs & _ & H).
  by rewrite !H.
Qed.

Lemma serve_replies upstream g rqs t t' :
  fst (serve upstream rqs {| globals := g; trace := t |})
  = (λ rq, fst (route upstream rq {| globals := g; trace := t' |})) <$> rqs.
Proof.
  revert t. induction rqs as [|rq rqs IH]; intros t; [done|].
  destruct (route_frame upstream g rq) as (reply & evs & _ & H).
  cbn [serve]. rewrite H.
  specialize (IH (t ++ evs)).
  destruct (serve upstream rqs _) as [rs w'']. cbn [fst] in *.
  rewrite fmap_cons, H. cbn [fst]. by rewrite IH.
Qed.

Lemma serve_globals upstream g rqs t :
  globals (snd (serve upstream rqs {| globals := g; trace := t |})) = g.
Proof.
  revert t. induction rqs as [|rq rqs IH]; intros t; [done|].
  destruct (route_frame upstream g rq) as (reply & evs & _ & H).
  cbn [serve]. rewrite H.
  specialize (IH (t ++ evs)).
  by destruct (serve upstream rqs _) as [rs w''].
Qed.

(** ** The chat exchange *)

(** C1, as claimed, fails: the handler does not make the response non-empty.
    A provider that answers with the empty text (session seeded, two turns
    added, no safety block) gets the empty string relayed as [response]
    with status 200. *)
Lemma empty_reply_is_relayed :
  ¬ (∀ (upstream : Provider) (request : ChatRequest) (w : World)
       (r : GenerateContentResponse) (reply : string),
       message request ≠ "" →
       answers upstream (globals w) request r reply →
       ¬ signals_safety_block r →
       ∃ out,
         fst (chat_with_sova upstream request w) = Returned out
         ∧ response out ≠ ""
         ∧ length (out_history out) = (length (history request) + 2)%nat
         ∧ out_history out
           = history request ++ [turn "user" (message request); turn "model" reply]
         ∧ history request `prefix_of` out_history out).
Proof.
  intros H.
  destruct (H (scripted "" 1) sample_request sample_world (scripted_response "" 1) "")
    as (out & Hout & Hne & _).
  - discriminate.
  - eexists _, _. repeat split; reflexivity.
  - intros (c & cs & Hc & Hf). injection Hc as <- _. discriminate Hf.
  - apply Hne. by injection Hout as <-.
Qed.

(** C1, amended. For a request with a non-empty message, when the provider
    answers (session seeded with the caller's turns, the message and the
    reply added as two turns, the reply readable as the response text) and
    does not signal a safety block, the handler returns status 200 with the
    provider's reply text, unchanged and unchecked, as [response] (so it is
    non-empty exactly when the provider's text is), and a history that is
    the inbound one followed by exactly two turns: role "user" with the
    message, then role "model" with the reply.  So the length grows by two
    and the inbound history is a prefix of the returned one. *)
Theorem chat_success_relays_reply
    (upstream : Provider) (request : ChatRequest) (w : World)
    (r : GenerateContentResponse) (reply : string) :
  message request ≠ "" →
  answers upstream (globals w) request r reply →
  ¬ signals_safety_block r →
  ∃ out,
    fst (chat_with_sova upstream request w) = Returned out
    ∧ response out = reply
    ∧ length (out_history out) = (length (history request) + 2)%nat
    ∧ out_history out
      = history request ++ [turn "user" (message request); turn "model" reply]
    ∧ history request `prefix_of` out_history out.
Proof.
  intros _ (s0 & s1 & H0 & Hseed & H1 & Hgrow & Ht) Hnb.
  apply safety_blocked_not in Hnb.
  rewrite (chat_replied upstream request w s0 s1 r reply) by done.
  eexists. split; [reflexivity|]. cbn [response out_history fst].
  assert (to_updated_history (session_history s1)
          = history request ++ [turn "user" (message request); turn "model" reply]) as ->.
  { rewrite Hgrow, Hseed. unfold to_updated_history at 1. rewrite fmap_app.
    fold (to_updated_history (to_contents (to_genai_history (history request)))).
    rewrite to_updated_history_to_contents, !fmap_cons.
    by rewrite to_entry_user_content, to_entry_model_content. }
  repeat split; [|by eexists].
  rewrite length_app. cbn. lia.
Qed.

Lemma chat_success_relays_reply_witness :
  message sample_request ≠ ""
  ∧ answers (scripted sample_reply 1) (globals sample_world) sample_request
      (scripted_response sample_reply 1) sample_reply
  ∧ ¬ signals_safety_block (scripted_response sample_reply 1)
  ∧ ∃ out,
      fst (chat_with_sova (scripted sample_reply 1) sample_request sample_world)
      = Returned out
      ∧ response out = sample_reply
      ∧ length (out_history out) = (length (history sample_request) + 2)%nat
      ∧ out_history out
        = history sample_request
          ++ [turn "user" (message sample_request); turn "model" sample_reply]
      ∧ history sample_request `prefix_of` out_history out.
Proof.
  assert (message sample_request ≠ "") as Hm by discriminate.
  assert (answers (scripted sample_reply 1) (globals sample_world) sample_request
            (scripted_response sample_reply 1) sample_reply) as Ha.
  { eexists _, _. repeat split; reflexivity. }
  assert (¬ signals_safety_block (scripted_response sample_reply 1)) as Hs.
  { intros (c & cs & Hc & Hf). injection Hc as <- _. discriminate Hf. }
  repeat (split; [assumption|]).
  exact (chat_success_relays_reply _ _ _ _ _ Hm Ha Hs).
Defined.

(** C2 does not hold of the code.  When the provider's safety filter
    suppresses the output (the call raises for the stopped candidate, or the
    response carries the finish reason SAFETY, which is 3, and no readable
    text), the test of line 137, which looks for the number 4, is not
    reached or is false: the caller gets the HTTP 500 of the [except]
    clause with the text of the exception, not the refusal string with the
    inbound history, which lines 136-141 mean to return. *)
Theorem chat_suppressed_output_is_500
    (upstream : Provider) (request : ChatRequest) (w : World) (e : PyException) :
  suppressed_for_safety upstream (globals w) request e →
  fst (chat_with_sova upstream request w)
  = HTTPException 500 ("Internal server error: " +:+ exc_str e)
  ∧ fst (chat_with_sova upstream request w)
    ≠ Returned {| response := refusal; out_history := history request |}.
Proof.
  intros (s0 & H0 & [H1|(r & s1 & c & cs & H1 & Hc & Hf & Ht)]).
  - by rewrite (chat_send_raises upstream request w s0 e).
  - assert (safety_blocked r = false) as Hb.
    { unfold safety_blocked. rewrite Hc, Hf. by apply bool_decide_eq_false_2. }
    by rewrite (chat_text_raises upstream request w s0 s1 r e).
Qed.

Lemma chat_suppressed_output_is_500_witness :
  suppressed_for_safety (safety_finished {| exc_str := "finish_reason: SAFETY" |})
    (globals sample_world)
    {| message := "m"; history := [turn "user" "a"; turn "model" "b"] |}
    {| exc_str := "finish_reason: SAFETY" |}
  ∧ fst (chat_with_sova (safety_finished {| exc_str := "finish_reason: SAFETY" |})
           {| message := "m"; history := [turn "user" "a"; turn "model" "b"] |}
           sample_world)
    = HTTPException 500
        ("Internal server error: " +:+ exc_str {| exc_str := "finish_reason: SAFETY" |})
  ∧ fst (chat_with_sova (safety_finished {| exc_str := "finish_reason: SAFETY" |})
           {| message := "m"; history := [turn "user" "a"; turn "model" "b"] |}
           sample_world)
    ≠ Returned {| response := refusal;
                  out_history :=
                    history {| message := "m";
                               history := [turn "user" "a"; turn "model" "b"] |} |}.
Proof.
  assert (suppressed_for_safety (safety_finished {| exc_str := "finish_reason: SAFETY" |})
            (globals sample_world)
            {| message := "m"; history := [turn "user" "a"; turn "model" "b"] |}
            {| exc_str := "finish_reason: SAFETY" |}) as Hs.
  { eexists. split; [reflexivity|]. right. eexists _, _, _, _. repeat split; reflexivity. }
  split; [assumption|].
  exact (chat_suppressed_output_is_500 _ _ _ _ Hs).
Defined.

(** The same when the call itself raises for the stopped candidate. *)
Example scenario_suppressed_call :
  fst (chat_with_sova (failing {| exc_str := "finish_reason: SAFETY" |})
         {| message := "m"; history := [turn "user" "a"; turn "model" "b"] |} sample_world)
  = HTTPException 500 "Internal server error: finish_reason: SAFETY".
Proof. vm_compute. reflexivity. Qed.

(** C3. Translating a history to the dicts handed to the provider, held by
    the provider as session turns, and translating those turns back gives
    the history itself: every role, the order of the turns and of their
    parts, and every text are kept.  On the way out each turn keeps its role
    and carries its texts in order under the key "text". *)
Theorem history_round_trip (h : list HistoryEntry) :
  to_updated_history (to_contents (to_genai_history h)) = h
  ∧ dict_role <$> to_genai_history h = role <$> h
  ∧ (λ d, omap (λ p, p !! "text") (dict_parts d)) <$> to_genai_history h
    = (λ entry, text <$> parts entry) <$> h.
Proof.
  split; [apply to_updated_history_to_contents|].
  unfold to_genai_history. rewrite <- !list_fmap_compose. split.
  - done.
  - apply list_fmap_ext. intros _ [r ps] _. cbn.
    induction ps as [|[s] ps IH]; [done|].
    cbn. rewrite lookup_singleton_eq. cbn. by rewrite IH.
Qed.

(** ** Failures inside the handler *)

Lemma outbound_calls_app t evs :
  outbound_calls (t ++ evs) = (outbound_calls t + outbound_calls evs)%nat.
Proof. induction t as [|[] t IH]; cbn; lia. Qed.

Lemma forwarded_app t evs : forwarded (t ++ evs) = forwarded t ++ forwarded evs.
Proof.
  induction t as [|[] t IH]; cbn; try done.
  by rewrite IH, app_assoc.
Qed.

(** The [try] statement: a raise in the body runs the [except] clause in the
    world the body left. *)
Lemma chat_with_sova_raised upstream request w e :
  fst (chat_body upstream request w) = Raise e →
  chat_with_sova upstream request w
  = chat_failure e (snd (chat_body upstream request w)).
Proof.
  unfold chat_with_sova, try_except.
  destruct (chat_body upstream request w) as [[a|e'] w']; cbn; [done|].
  by intros [= ->].
Qed.

(** Where the body can raise: the two provider calls and the text property. *)
Lemma chat_body_raises upstream request w e :
  fst (chat_body upstream request w) = Raise e ↔
  start_chat upstream (model (globals w)) (to_genai_history (history request)) = Raise e
  ∨ ∃ s0,
      start_chat upstream (model (globals w)) (to_genai_history (history request)) = Ret s0
      ∧ (send_message upstream s0 (message request) = Raise e
         ∨ ∃ r s1, send_message upstream s0 (message request) = Ret (r, s1)
                   ∧ safety_blocked r = false ∧ response_text r = Raise e).
Proof.
  unfold chat_body, model_start_chat, chat_session_send_message, read_text.
  unfold mbind, M_bind, mret, M_ret.
  split.
  - destruct (start_chat upstream _ _) as [s0|e0] eqn:H0; cbn;
      [|intros [= ->]; by left].
    destruct (send_message upstream s0 _) as [[r s1]|e1] eqn:H1; cbn;
      [|intros [= ->]; right; exists s0; split; [done|by left]].
    destruct (safety_blocked r) eqn:Hb; cbn; [done|].
    destruct (response_text r) as [reply|e2] eqn:Ht; cbn; [done|].
    intros [= ->]. right. exists s0. split; [done|]. right. by exists r, s1.
  - intros [H0|(s0 & H0 & [H1|(r & s1 & H1 & Hb & Ht)])]; rewrite H0; cbn.
    + done.
    + by rewrite H1.
    + rewrite H1; cbn. by rewrite Hb, Ht.
Qed.

(** C4. Every exception raised inside the handler's [try] (that is, by
    [start_chat], by [send_message] or by reading the response text) ends in
    the single [except] clause: the reply is an HTTP 500 whose [detail] is
    "Internal server error: " followed by the text of the exception, hence
    non-empty; no chat response is returned; the provider was sent at most
    one message (no retry); the globals are untouched, and the requests that
    follow are served with the replies they would have had anyway. *)
Theorem chat_exception_is_500
    (upstream : Provider) (request : ChatRequest) (w : World) (e : PyException) :
  fst (chat_body upstream request w) = Raise e →
  ∃ detail w',
    chat_with_sova upstream request w = (HTTPException 500 detail, w')
    ∧ detail = "Internal server error: " +:+ exc_str e
    ∧ detail ≠ ""
    ∧ (outbound_calls (trace w') ≤ outbound_calls (trace w) + 1)%nat
    ∧ globals w' = globals w
    ∧ ∀ rqs, fst (serve upstream (POST_chat request :: rqs) w)
             = HTTPException 500 detail :: fst (serve upstream rqs w).
Proof.
  intros Hraise. destruct w as [g t].
  pose proof (chat_with_sova_raised _ _ _ _ Hraise) as Hfail.
  destruct (chat_with_sova_frame upstream g request) as (reply & evs & Hn & _ & H).
  rewrite H in Hfail. unfold chat_failure in Hfail. injection Hfail as -> Hw.
  eexists _, _. split; [apply H|]. repeat split.
  - done.
  - cbn. rewrite outbound_calls_app. lia.
  - intros rqs. cbn [serve]. unfold route at 1. rewrite H.
    pose proof (serve_replies upstream g rqs (t ++ evs) t) as H1.
    pose proof (serve_replies upstream g rqs t t) as H2.
    destruct (serve upstream rqs {| globals := g; trace := t ++ evs |}) as [rs w''].
    cbn in *. by rewrite H1, H2.
Qed.

Lemma chat_exception_is_500_witness :
  fst (chat_body (failing {| exc_str := "quota" |}) sample_request sample_world)
  = Raise {| exc_str := "quota" |}
  ∧ ∃ detail w',
      chat_with_sova (failing {| exc_str := "quota" |}) sample_request sample_world
      = (HTTPException 500 detail, w')
      ∧ detail = "Internal server error: " +:+ exc_str {| exc_str := "quota" |}
      ∧ detail ≠ ""
      ∧ (outbound_calls (trace w') ≤ outbound_calls (trace sample_world) + 1)%nat
      ∧ globals w' = globals sample_world
      ∧ ∀ rqs, fst (serve (failing {| exc_str := "quota" |})
                      (POST_chat sample_request :: rqs) sample_world)
               = HTTPException 500 detail
                 :: fst (serve (failing {| exc_str := "quota" |}) rqs sample_world).
Proof.
  assert (fst (chat_body (failing {| exc_str := "quota" |}) sample_request sample_world)
          = Raise {| exc_str := "quota" |}) as Hr by reflexivity.
  split; [assumption|].
  exact (chat_exception_is_500 _ _ _ _ Hr).
Defined.

(** C9. When the provider returns a response with an empty candidates list
    and reading its text raises, the handler does not take the refusal
    branch (line 137 is false on an empty list): the caller gets an HTTP 500
    carrying the text of the exception, not the refusal string with the
    history unchanged. *)
Theorem chat_no_candidates_is_500
    (upstream : Provider) (request : ChatRequest) (w : World)
    (r : GenerateContentResponse) (e : PyException) :
  responds upstream (globals w) request r →
  candidates r = [] →
  response_text r = Raise e →
  safety_blocked r = false
  ∧ fst (chat_with_sova upstream request w)
    = HTTPException 500 ("Internal server error: " +:+ exc_str e)
  ∧ fst (chat_with_sova upstream request w)
    ≠ Returned {| response := refusal; out_history := history request |}.
Proof.
  intros (s0 & s1 & H0 & H1) Hc Ht.
  assert (safety_blocked r = false) as Hb by (unfold safety_blocked; by rewrite Hc).
  rewrite (chat_text_raises upstream request w s0 s1 r e) by done.
  done.
Qed.

Lemma chat_no_candidates_is_500_witness :
  responds (no_candidates {| exc_str := "no candidates" |}) (globals sample_world)
    sample_request {| candidates := []; response_text := Raise {| exc_str := "no candidates" |} |}
  ∧ candidates {| candidates := [];
                  response_text := Raise {| exc_str := "no candidates" |} |} = []
  ∧ response_text {| candidates := [];
                     response_text := Raise {| exc_str := "no candidates" |} |}
    = Raise {| exc_str := "no candidates" |}
  ∧ safety_blocked {| candidates := [];
                      response_text := Raise {| exc_str := "no candidates" |} |} = false
  ∧ fst (chat_with_sova (no_candidates {| exc_str := "no candidates" |})
           sample_request sample_world)
    = HTTPException 500
        ("Internal server error: " +:+ exc_str {| exc_str := "no candidates" |})
  ∧ fst (chat_with_sova (no_candidates {| exc_str := "no candidates" |})
           sample_request sample_world)
    ≠ Returned {| response := refusal; out_history := history sample_request |}.
Proof.
  assert (responds (no_candidates {| exc_str := "no candidates" |}) (globals sample_world)
            sample_request
            {| candidates := [];
               response_text := Raise {| exc_str := "no candidates" |} |}) as Hr.
  { eexists _, _. split; reflexivity. }
  split; [assumption|]. split; [reflexivity|]. split; [reflexivity|].
  exact (chat_no_candidates_is_500 _ _ _ _ _ Hr eq_refl eq_refl).
Defined.

(** ** Start-up *)

Lemma load_dotenv_absent dotenv environ name :
  getenv (load_dotenv dotenv environ) name = None
  ↔ environ !! name = None ∧ dotenv !! name = None.
Proof. unfold getenv, load_dotenv. apply lookup_union_None. Qed.

(** The module finishes its import exactly when the credential is set to a
    non-empty string. *)
Lemma startup_started dotenv environ :
  (∃ g, startup dotenv environ = Started g)
  ↔ ∃ key, getenv (load_dotenv dotenv environ) "GEMINI_API_KEY" = Some key ∧ key ≠ "".
Proof.
  unfold startup.
  destruct (getenv (load_dotenv dotenv environ) "GEMINI_API_KEY") as [key|]; cbn.
  - case_bool_decide as Hk.
    + split; [by intros [g ?]|]. intros (key' & [= <-] & ?). done.
    + split; [|by eexists]. intros _. by exists key.
  - split; [by intros [g ?]|]. by intros (key' & ? & _).
Qed.

(** C5. If the credential variable is absent from the environment the
    module reads (after [load_dotenv]), the process exits with status 1, not
    zero, whatever requests are waiting: none of them is served. *)
Theorem missing_credential_exits
    (dotenv environ : gmap string string) (upstream : Provider)
    (rqs : list HttpRequest) :
  getenv (load_dotenv dotenv environ) "GEMINI_API_KEY" = None →
  ∃ code out,
    main dotenv environ upstream rqs = Exited code out
    ∧ code ≠ 0
    ∧ ∀ replies w, main dotenv environ upstream rqs ≠ Served replies w.
Proof.
  intros Habs. unfold main, startup. rewrite Habs. cbn.
  eexists 1, _. by repeat split.
Qed.

Lemma missing_credential_exits_witness :
  getenv (load_dotenv ∅ ∅) "GEMINI_API_KEY" = None
  ∧ ∃ code out,
      main ∅ ∅ (scripted sample_reply 1) [POST_chat sample_request; GET_root]
      = Exited code out
      ∧ code ≠ 0
      ∧ ∀ replies w,
          main ∅ ∅ (scripted sample_reply 1) [POST_chat sample_request; GET_root]
          ≠ Served replies w.
Proof.
  assert (getenv (load_dotenv ∅ ∅) "GEMINI_API_KEY" = None) as Habs by reflexivity.
  split; [assumption|].
  exact (missing_credential_exits ∅ ∅ _ _ Habs).
Defined.

(** ** The health check *)

(** C8. Once the module has started, GET / always answers status 200 with the
    same descriptor, whose message, version and model are non-empty; it adds
    nothing to the trace (no call goes out) and the answer is the same for
    every provider, failing or not. *)
Theorem root_always_describes
    (dotenv environ : gmap string string) (g : Globals) :
  startup dotenv environ = Started g →
  ∃ d,
    d_message d ≠ "" ∧ d_version d ≠ "" ∧ d_model d ≠ ""
    ∧ ∀ (upstream : Provider) (t : list Event),
        root {| globals := g; trace := t |}
        = (Returned d, {| globals := g; trace := t |})
        ∧ route upstream GET_root {| globals := g; trace := t |}
          = (Returned (RootBody d), {| globals := g; trace := t |})
        ∧ status (fst (route upstream GET_root {| globals := g; trace := t |})) = 200.
Proof.
  unfold startup. destruct (py_not _); [done|]. intros [= <-].
  exists {| d_message := "Sova Chatbot API is running. Use the /chat endpoint to interact.";
            d_version := "1.0.0";
            d_model := "models/gemini-2.5-flash" |}.
  do 3 (split; [done|]). intros upstream t. by repeat split.
Qed.

Lemma root_always_describes_witness :
  startup ∅ sample_environ = Started sample_globals
  ∧ ∃ d,
      d_message d ≠ "" ∧ d_version d ≠ "" ∧ d_model d ≠ ""
      ∧ ∀ (upstream : Provider) (t : list Event),
          root {| globals := sample_globals; trace := t |}
          = (Returned d, {| globals := sample_globals; trace := t |})
          ∧ route upstream GET_root {| globals := sample_globals; trace := t |}
            = (Returned (RootBody d), {| globals := sample_globals; trace := t |})
          ∧ status (fst (route upstream GET_root
                           {| globals := sample_globals; trace := t |})) = 200.
Proof.
  assert (startup ∅ sample_environ = Started sample_globals) as Hs by reflexivity.
  split; [assumption|].
  exact (root_always_describes ∅ sample_environ sample_globals Hs).
Defined.

(** ** No state is shared between requests *)

(** C7. For fixed globals and a fixed provider, the reply to a chat request
    is the same whatever was handled before (the trace so far), handling it
    leaves the globals as they were, and in any sequence of requests every
    reply is the one the request would get on its own. *)
Theorem handling_shares_no_state
    (upstream : Provider) (g : Globals) (request : ChatRequest)
    (t1 t2 : list Event) (rqs : list HttpRequest) :
  fst (chat_with_sova upstream request {| globals := g; trace := t1 |})
  = fst (chat_with_sova upstream request {| globals := g; trace := t2 |})
  ∧ globals (snd (chat_with_sova upstream request {| globals := g; trace := t1 |})) = g
  ∧ fst (serve upstream rqs {| globals := g; trace := t1 |})
    = (λ rq, fst (route upstream rq {| globals := g; trace := [] |})) <$> rqs
  ∧ globals (snd (serve upstream rqs {| globals := g; trace := t1 |})) = g.
Proof.
  destruct (chat_with_sova_frame upstream g request) as (reply & evs & _ & _ & H).
  rewrite !H. repeat split.
  - apply serve_replies.
  - apply serve_globals.
Qed.

(** ** Parts without text *)

(** C10. Translating a session turn back keeps its role and keeps, in order,
    the text of exactly those parts that have a [text] attribute; the others
    are dropped without an error, so the returned turn can have fewer parts
    than the session turn, and even none while its role is still there. *)
Theorem textless_parts_are_dropped :
  (∀ content : Content,
      role (to_entry content) = content_role content
      ∧ text <$> parts (to_entry content)
        = omap (λ part, getattr part "text") (content_parts content)
      ∧ length (parts (to_entry content))
        = length (filter (λ part, is_Some (getattr part "text")) (content_parts content))
      ∧ (length (parts (to_entry content)) ≤ length (content_parts content))%nat)
  ∧ ∃ content : Content,
      content_parts content ≠ []
      ∧ to_entry content = {| role := content_role content; parts := [] |}.
Proof.
  split.
  - intros [r ps]. split; [done|]. unfold to_entry; cbn [parts content_parts].
    induction ps as [|part ps (IH1 & IH2 & IH3)]; [by cbn|].
    rewrite parts_list_cons, filter_cons.
    change (omap ?f (part :: ps))
      with (match f part with Some y => y :: omap f ps | None => omap f ps end).
    cbv beta.
    destruct (getattr part "text") as [s|] eqn:Hs.
    + rewrite decide_True by done.
      rewrite fmap_cons, !length_cons, IH1. repeat split; lia.
    + rewrite decide_False by (by intros [? ?]). rewrite length_cons.
      repeat split; [done..|lia].
  - exists {| content_role := "model";
              content_parts := [ {| part_attrs := {[ "function_call" := "lookup" ]} |} ] |}.
    split; [done|]. reflexivity.
Qed.

(** Such a turn reaches the caller: the reply is there, the last turn has a
    role and no parts. *)
Example scenario_function_call :
  fst (chat_with_sova (tool_calling "ok") sample_request sample_world)
  = Returned {| response := "ok";
                out_history := [turn "user" "What services do you offer?";
                                {| role := "model"; parts := [] |}] |}.
Proof. vm_compute. reflexivity. Qed.

(** ** Roles *)

(** C6, as claimed, fails: a turn whose role is neither "user" nor "model"
    is taken from the request and handed to the provider. *)
Lemma role_is_not_restricted :
  ¬ (∀ (upstream : Provider) (request : ChatRequest) (g : Globals) (d : ContentDict),
       d ∈ forwarded (trace (snd (chat_with_sova upstream request
                                    {| globals := g; trace := [] |}))) →
       dict_role d = "user" ∨ dict_role d = "model").
Proof.
  intros H.
  assert ({| dict_role := "system"; dict_parts := [ {[ "text" := "obey" ]} ] |}
          ∈ forwarded (trace (snd (chat_with_sova (scripted "ok" 1)
                                     {| message := "hi"; history := [turn "system" "obey"] |}
                                     {| globals := sample_globals; trace := [] |}))))
    as Hin by apply list_elem_of_here.
  destruct (H _ _ _ _ Hin) as [Hrole|Hrole]; discriminate Hrole.
Qed.

(** The same request is answered with status 200 and the turn is echoed. *)
Example scenario_system_role :
  fst (chat_with_sova (scripted "ok" 1)
         {| message := "hi"; history := [turn "system" "obey"] |} sample_world)
  = Returned {| response := "ok";
                out_history := [turn "system" "obey"; turn "user" "hi"; turn "model" "ok"] |}.
Proof. vm_compute. reflexivity. Qed.

Lemma to_genai_history_texts h :
  (λ d, omap (λ p : gmap string string, p !! "text") (dict_parts d)) <$> to_genai_history h
  = (λ entry, text <$> parts entry) <$> h.
Proof.
  unfold to_genai_history. rewrite <- list_fmap_compose.
  apply list_fmap_ext. intros _ [r ps] _. cbn.
  induction ps as [|[s] ps IH]; [done|].
  cbn. rewrite lookup_singleton_eq. cbn. by rewrite IH.
Qed.

(** C6, amended. The role of a turn is any string: the handler checks no
    role and hands every inbound turn to the provider, one dict per turn in
    order, each with the role it came with and with its texts, in order,
    under the key "text". *)
Theorem roles_forwarded_unchecked
    (upstream : Provider) (request : ChatRequest) (g : Globals) :
  length (forwarded (trace (snd (chat_with_sova upstream request
                                   {| globals := g; trace := [] |}))))
  = length (history request)
  ∧ dict_role <$> forwarded (trace (snd (chat_with_sova upstream request
                                           {| globals := g; trace := [] |})))
    = role <$> history request
  ∧ (λ d, omap (λ p : gmap string string, p !! "text") (dict_parts d))
      <$> forwarded (trace (snd (chat_with_sova upstream request
                                   {| globals := g; trace := [] |})))
    = (λ entry, text <$> parts entry) <$> history request.
Proof.
  destruct (chat_with_sova_frame upstream g request) as (reply & evs & _ & Hf & H).
  rewrite H. cbn [snd trace]. rewrite app_nil_l, Hf. split; [|split].
  - unfold to_genai_history. by rewrite length_fmap.
  - unfold to_genai_history. by rewrite <- list_fmap_compose.
  - apply to_genai_history_texts.
Qed.

(** * Further properties of the module *)

(** ** What one chat request leaves in the trace *)

Lemma printed_app t evs : printed (t ++ evs) = printed t ++ printed evs.
Proof. induction t as [|[] t IH]; cbn; by rewrite ?IH. Qed.

Lemma started_app t evs : started (t ++ evs) = started t ++ started evs.
Proof. induction t as [|[] t IH]; cbn; by rewrite ?IH. Qed.

Lemma sent_messages_app t evs :
  sent_messages (t ++ evs) = sent_messages t ++ sent_messages evs.
Proof. induction t as [|[] t IH]; cbn; by rewrite ?IH. Qed.

(** The five ways through the handler, with the reply and the events of
    each. *)
Lemma chat_with_sova_cases upstream g request :
  ∃ reply evs,
    (∀ t, chat_with_sova upstream request {| globals := g; trace := t |}
          = (reply, {| globals := g; trace := t ++ evs |}))
    ∧ started evs = [to_genai_history (history request)]
    ∧ (sent_messages evs = [] ∨ sent_messages evs = [message request])
    ∧ ((∃ out, reply = Returned out ∧ printed evs = [])
       ∨ (∃ e, reply = HTTPException 500 ("Internal server error: " +:+ exc_str e)
               ∧ printed evs
                 = ["An error occurred during chat processing: " +:+ exc_str e])).
Proof.
  set (gh := to_genai_history (history request)).
  set (line := λ e, Printed ("An error occurred during chat processing: " +:+ exc_str e)).
  destruct (start_chat upstream (model g) gh) as [s0|e] eqn:H0.
  2:{ exists (HTTPException 500 ("Internal server error: " +:+ exc_str e)),
        [StartChat gh; line e].
      split; [|by eauto 10]. intros t.
      rewrite (chat_start_raises _ _ _ e) by done.
      unfold chat_failure, emit; cbn. by rewrite <- app_assoc. }
  set (sent := SendMessage (session_history s0) (message request)).
  destruct (send_message upstream s0 (message request)) as [[r s1]|e] eqn:H1.
  2:{ exists (HTTPException 500 ("Internal server error: " +:+ exc_str e)),
        [StartChat gh; sent; line e].
      split; [|by eauto 10]. intros t.
      rewrite (chat_send_raises _ _ _ s0 e) by done.
      unfold chat_failure, emit; cbn. by rewrite <- !app_assoc. }
  destruct (safety_blocked r) eqn:Hb.
  { eexists _, [StartChat gh; sent]. split; [|by eauto 10]. intros t.
    rewrite (chat_blocked _ _ _ s0 s1 r) by done.
    unfold emit; cbn. by rewrite <- app_assoc. }
  destruct (response_text r) as [reply|e] eqn:Ht.
  - eexists _, [StartChat gh; sent]. split; [|by eauto 10]. intros t.
    rewrite (chat_replied _ _ _ s0 s1 r reply) by done.
    unfold emit; cbn. by rewrite <- app_assoc.
  - exists (HTTPException 500 ("Internal server error: " +:+ exc_str e)),
      [StartChat gh; sent; line e].
    split; [|by eauto 10]. intros t.
    rewrite (chat_text_raises _ _ _ s0 s1 r e) by done.
    unfold chat_failure, emit; cbn. by rewrite <- !app_assoc.
Qed.

(** X1. A chat request is answered with status 200 or with status 500 and
    nothing else.  With 200 the handler prints nothing; with 500 it prints
    exactly one line, and the line and the [detail] of the reply carry the
    text of the same exception. *)
Theorem chat_prints_only_on_failure
    (upstream : Provider) (g : Globals) (request : ChatRequest) (t : list Event) :
  (∃ out,
      fst (chat_with_sova upstream request {| globals := g; trace := t |}) = Returned out
      ∧ printed (trace (snd (chat_with_sova upstream request
                               {| globals := g; trace := t |}))) = printed t)
  ∨ (∃ e,
      fst (chat_with_sova upstream request {| globals := g; trace := t |})
      = HTTPException 500 ("Internal server error: " +:+ exc_str e)
      ∧ printed (trace (snd (chat_with_sova upstream request
                               {| globals := g; trace := t |})))
        = printed t ++ ["An error occurred during chat processing: " +:+ exc_str e]).
Proof.
  destruct (chat_with_sova_cases upstream g request)
    as (reply & evs & H & _ & _ & [(out & -> & Hp)|(e & -> & Hp)]).
  - left. exists out. rewrite H; cbn. by rewrite printed_app, Hp, app_nil_r.
  - right. exists e. rewrite H; cbn. by rewrite printed_app, Hp.
Qed.

(** X2. Handling one chat request calls [start_chat] exactly once, with the
    translated inbound history, and calls [send_message] at most once; if it
    does, the message sent is the caller's message, unchanged. *)
Theorem chat_calls_provider_once
    (upstream : Provider) (g : Globals) (request : ChatRequest) (t : list Event) :
  started (trace (snd (chat_with_sova upstream request {| globals := g; trace := t |})))
  = started t ++ [to_genai_history (history request)]
  ∧ (sent_messages (trace (snd (chat_with_sova upstream request
                                  {| globals := g; trace := t |})))
     = sent_messages t
     ∨ sent_messages (trace (snd (chat_with_sova upstream request
                                    {| globals := g; trace := t |})))
       = sent_messages t ++ [message request]).
Proof.
  destruct (chat_with_sova_cases upstream g request)
    as (reply & evs & H & Hs & Hm & _).
  rewrite H; cbn. rewrite started_app, sent_messages_app, Hs. split; [done|].
  destruct Hm as [->| ->]; [left; by rewrite app_nil_r|by right].
Qed.

(** X3. When [start_chat] itself raises, no message is sent to the provider:
    the reply is the 500 of the [except] clause and the messages sent so far
    are unchanged. *)
Theorem start_chat_failure_sends_nothing
    (upstream : Provider) (request : ChatRequest) (w : World) (e : PyException) :
  start_chat upstream (model (globals w)) (to_genai_history (history request)) = Raise e →
  fst (chat_with_sova upstream request w)
  = HTTPException 500 ("Internal server error: " +:+ exc_str e)
  ∧ sent_messages (trace (snd (chat_with_sova upstream request w)))
    = sent_messages (trace w)
  ∧ outbound_calls (trace (snd (chat_with_sova upstream request w)))
    = outbound_calls (trace w).
Proof.
  intros H. rewrite (chat_start_raises upstream request w e H).
  unfold chat_failure, emit; cbn.
  rewrite <- app_assoc, sent_messages_app, outbound_calls_app; cbn.
  rewrite app_nil_r. split; [done|]. split; [done|lia].
Qed.

Lemma start_chat_failure_sends_nothing_witness :
  start_chat (rejecting {| exc_str := "bad history" |}) (model (globals sample_world))
    (to_genai_history (history sample_request))
  = Raise {| exc_str := "bad history" |}
  ∧ fst (chat_with_sova (rejecting {| exc_str := "bad history" |})
           sample_request sample_world)
    = HTTPException 500 ("Internal server error: " +:+ exc_str {| exc_str := "bad history" |})
  ∧ sent_messages (trace (snd (chat_with_sova (rejecting {| exc_str := "bad history" |})
                                 sample_request sample_world)))
    = sent_messages (trace sample_world)
  ∧ outbound_calls (trace (snd (chat_with_sova (rejecting {| exc_str := "bad history" |})
                                  sample_request sample_world)))
    = outbound_calls (trace sample_world).
Proof.
  assert (start_chat (rejecting {| exc_str := "bad history" |})
            (model (globals sample_world)) (to_genai_history (history sample_request))
          = Raise {| exc_str := "bad history" |}) as Hs by reflexivity.
  split; [assumption|].
  exact (start_chat_failure_sends_nothing _ _ _ _ Hs).
Defined.

(** X4. Only the first candidate decides the refusal: when the first
    candidate's finish reason is not 4 and the text can be read, the handler
    returns that text with status 200, whatever the finish reasons of the
    other candidates are. *)
Theorem only_first_candidate_counts
    (upstream : Provider) (request : ChatRequest) (w : World)
    (r : GenerateContentResponse) (c : Candidate) (cs : list Candidate)
    (reply : string) :
  responds upstream (globals w) request r →
  candidates r = c :: cs →
  finish_reason c ≠ 4 →
  response_text r = Ret reply →
  ∃ out,
    fst (chat_with_sova upstream request w) = Returned out
    ∧ response out = reply.
Proof.
  intros (s0 & s1 & H0 & H1) Hc Hf Ht.
  assert (safety_blocked r = false) as Hb.
  { unfold safety_blocked. rewrite Hc. by apply bool_decide_eq_false_2. }
  rewrite (chat_replied upstream request w s0 s1 r reply) by done.
  by eexists.
Qed.

Lemma only_first_candidate_counts_witness :
  responds (two_candidates "ok") (globals sample_world) sample_request
    {| candidates := [ {| finish_reason := 1 |}; {| finish_reason := 4 |} ];
       response_text := Ret "ok" |}
  ∧ candidates {| candidates := [ {| finish_reason := 1 |}; {| finish_reason := 4 |} ];
                  response_text := Ret "ok" |}
    = {| finish_reason := 1 |} :: [ {| finish_reason := 4 |} ]
  ∧ finish_reason {| finish_reason := 1 |} ≠ 4
  ∧ response_text {| candidates := [ {| finish_reason := 1 |}; {| finish_reason := 4 |} ];
                     response_text := Ret "ok" |} = Ret "ok"
  ∧ ∃ out,
      fst (chat_with_sova (two_candidates "ok") sample_request sample_world) = Returned out
      ∧ response out = "ok".
Proof.
  assert (responds (two_candidates "ok") (globals sample_world) sample_request
            {| candidates := [ {| finish_reason := 1 |}; {| finish_reason := 4 |} ];
               response_text := Ret "ok" |}) as Hr.
  { eexists _, _. split; reflexivity. }
  assert (finish_reason {| finish_reason := 1 |} ≠ 4) as Hf by discriminate.
  split; [assumption|]. split; [reflexivity|]. split; [assumption|].
  split; [reflexivity|].
  exact (only_first_candidate_counts _ _ _ _ _ _ _ Hr eq_refl Hf eq_refl).
Defined.

(** ** The serving loop *)

(** X6. Serving a sequence of requests sends the provider at most one
    message per POST /chat request and none for GET /: the number of
    messages sent grows by at most the number of chat requests. *)
Theorem serve_sends_at_most_one_per_chat
    (upstream : Provider) (g : Globals) (rqs : list HttpRequest) (t : list Event) :
  (outbound_calls (trace (snd (serve upstream rqs {| globals := g; trace := t |})))
   ≤ outbound_calls t + chat_requests rqs)%nat.
Proof.
  revert t. induction rqs as [|rq rqs IH]; intros t; [cbn; lia|].
  cbn [serve]. destruct rq as [body|].
  - destruct (chat_with_sova_frame upstream g body) as (reply & evs & Hn & _ & H).
    unfold route. rewrite H. specialize (IH (t ++ evs)).
    destruct (serve upstream rqs _) as [rs w'']. cbn [snd chat_requests] in *.
    rewrite outbound_calls_app in IH. lia.
  - unfold route, root. cbn [reply_map]. specialize (IH t).
    destruct (serve upstream rqs _) as [rs w'']. cbn [snd chat_requests] in *. lia.
Qed.

(** ** Start-up, the other cases *)

(** X7. A credential that is set to the empty string counts as missing: the
    process prints the error line, exits with status 1 and serves nothing. *)
Theorem empty_credential_exits
    (dotenv environ : gmap string string) (upstream : Provider)
    (rqs : list HttpRequest) :
  getenv (load_dotenv dotenv environ) "GEMINI_API_KEY" = Some "" →
  main dotenv environ upstream rqs = Exited 1 [startup_error].
Proof. intros H. unfold main, startup. by rewrite H. Qed.

Lemma empty_credential_exits_witness :
  getenv (load_dotenv ∅ {[ "GEMINI_API_KEY" := "" ]}) "GEMINI_API_KEY" = Some ""
  ∧ main ∅ {[ "GEMINI_API_KEY" := "" ]} (scripted sample_reply 1) [GET_root]
    = Exited 1 [startup_error].
Proof.
  assert (getenv (load_dotenv ∅ {[ "GEMINI_API_KEY" := "" ]}) "GEMINI_API_KEY" = Some "")
    as H by reflexivity.
  split; [assumption|].
  exact (empty_credential_exits ∅ {[ "GEMINI_API_KEY" := "" ]} _ _ H).
Defined.

(** X8. A process that started holds a non-empty credential: the value the
    process environment has for the variable if it has one, else the value
    from the .env file. *)
Theorem started_credential
    (dotenv environ : gmap string string) (g : Globals) :
  startup dotenv environ = Started g →
  GEMINI_API_KEY g ≠ ""
  ∧ match environ !! "GEMINI_API_KEY" with
    | Some key => GEMINI_API_KEY g = key
    | None => dotenv !! "GEMINI_API_KEY" = Some (GEMINI_API_KEY g)
    end.
Proof.
  unfold startup, getenv, load_dotenv.
  destruct ((environ ∪ dotenv) !! "GEMINI_API_KEY") as [key|] eqn:Hk; cbn; [|done].
  case_bool_decide as Hne; [done|]. intros [= <-]. cbn.
  split; [done|].
  apply lookup_union_Some_raw in Hk as [Hk|[Hn Hk]].
  - by rewrite Hk.
  - by rewrite Hn.
Qed.

Lemma started_credential_witness :
  startup {[ "GEMINI_API_KEY" := "k" ]} ∅ = Started sample_globals
  ∧ GEMINI_API_KEY sample_globals ≠ ""
  ∧ match (∅ : gmap string string) !! "GEMINI_API_KEY" with
    | Some key => GEMINI_API_KEY sample_globals = key
    | None => ({[ "GEMINI_API_KEY" := "k" ]} : gmap string string) !! "GEMINI_API_KEY"
              = Some (GEMINI_API_KEY sample_globals)
    end.
Proof.
  assert (startup {[ "GEMINI_API_KEY" := "k" ]} ∅ = Started sample_globals)
    as Hs by reflexivity.
  split; [assumption|].
  exact (started_credential {[ "GEMINI_API_KEY" := "k" ]} ∅ sample_globals Hs).
Defined.

(** ** The translations, turn by turn *)

(** X9. The forward translation (lines 123-128) keeps the number of turns
    and, turn by turn, the role and the number of parts; every part becomes
    a dict with the single key "text".  A turn without parts goes out as a
    turn without parts. *)
Theorem forward_translation_shape (h : list HistoryEntry) :
  length (to_genai_history h) = length h
  ∧ Forall2 (λ entry d,
        dict_role d = role entry
        ∧ length (dict_parts d) = length (parts entry)
        ∧ Forall (λ p : gmap string string, dom p = {[ "text" ]}) (dict_parts d))
      h (to_genai_history h).
Proof.
  unfold to_genai_history. split; [by rewrite length_fmap|].
  apply Forall2_fmap_r, Forall_Forall2_diag, Forall_forall.
  intros [r ps] _. cbn. split; [done|]. split; [by rewrite length_fmap|].
  apply Forall_fmap, Forall_forall. intros p _. cbn. apply dom_singleton_L.
Qed.

(** X10. The backward translation (lines 145-148) never drops or reorders a
    turn: the returned history has as many turns as the session, with the
    session's roles in order, and in total no more parts than the session
    held. *)
Theorem backward_translation_keeps_turns (cs : list Content) :
  length (to_updated_history cs) = length cs
  ∧ role <$> to_updated_history cs = content_role <$> cs
  ∧ (length (mjoin (parts <$> to_updated_history cs))
     ≤ length (mjoin (content_parts <$> cs)))%nat.
Proof.
  unfold to_updated_history. split; [by rewrite length_fmap|].
  split; [by rewrite <- list_fmap_compose|].
  induction cs as [|[r ps] cs IH]; [done|].
  rewrite !fmap_cons. cbn [mjoin list_join]. rewrite !length_app.
  assert (length (parts (to_entry {| content_role := r; content_parts := ps |}))
          ≤ length ps)%nat as Hps; [|exact (Nat.add_le_mono _ _ _ _ Hps IH)].
  unfold to_entry; cbn [parts]. clear IH.
  induction ps as [|part ps IH]; [done|].
  rewrite parts_list_cons. destruct (getattr part "text"); cbn [length]; lia.
Qed.

(** X11. Two histories that are forwarded as the same dicts are the same
    history: the forward translation loses nothing. *)
Theorem forward_translation_injective (h1 h2 : list HistoryEntry) :
  to_genai_history h1 = to_genai_history h2 → h1 = h2.
Proof.
  intros H.
  rewrite <- (to_updated_history_to_contents h1), <- (to_updated_history_to_contents h2).
  by rewrite H.
Qed.

Lemma forward_translation_injective_witness :
  to_genai_history [turn "user" "a"; turn "model" "b"]
  = to_genai_history [turn "user" "a"; turn "model" "b"]
  ∧ [turn "user" "a"; turn "model" "b"] = [turn "user" "a"; turn "model" "b"].
Proof.
  split; [reflexivity|].
  exact (forward_translation_injective _ _ eq_refl).
Defined.

(** X12. A session whose parts are all plain text parts can be rebuilt from
    what the caller receives: translating it back, forward again and into
    session turns gives the session itself. *)
Theorem text_only_session_rebuilt (cs : list Content) :
  text_only cs →
  to_contents (to_genai_history (to_updated_history cs)) = cs.
Proof.
  unfold text_only, to_contents, to_genai_history, to_updated_history.
  induction 1 as [|[r ps] cs Hps _ IH]; [done|].
  rewrite !fmap_cons, IH. f_equal.
  unfold to_content, to_genai_entry, to_entry.
  cbn [dict_role dict_parts role parts content_role content_parts] in *. f_equal.
  induction Hps as [|part ps [s ->] _ IHps]; [done|].
  rewrite parts_list_cons, getattr_text_part, !fmap_cons. cbn [text].
  by rewrite IHps.
Qed.

Lemma text_only_session_rebuilt_witness :
  text_only [user_content "a"; model_content "b"]
  ∧ to_contents (to_genai_history (to_updated_history [user_content "a"; model_content "b"]))
    = [user_content "a"; model_content "b"].
Proof.
  assert (text_only [user_content "a"; model_content "b"]) as H.
  { repeat constructor; by eexists. }
  split; [assumption|].
  exact (text_only_session_rebuilt _ H).
Defined.

(** ** A conversation over two requests *)

(** The reply and the world after an answered, unblocked request. *)
Lemma chat_answered upstream request w r reply :
  answers upstream (globals w) request r reply →
  ¬ signals_safety_block r →
  ∃ s0,
    chat_with_sova upstream request w
    = (Returned {| response := reply;
                   out_history := history request
                                  ++ [turn "user" (message request); turn "model" reply] |},
       emit (SendMessage (session_history s0) (message request))
         (emit (StartChat (to_genai_history (history request))) w)).
Proof.
  intros (s0 & s1 & H0 & Hseed & H1 & Hgrow & Ht) Hnb.
  apply safety_blocked_not in Hnb. exists s0.
  rewrite (chat_replied upstream request w s0 s1 r reply) by done.
  do 3 f_equal. rewrite Hgrow, Hseed.
  unfold to_updated_history at 1. rewrite fmap_app.
  fold (to_updated_history (to_contents (to_genai_history (history request)))).
  rewrite to_updated_history_to_contents, !fmap_cons.
  by rewrite to_entry_user_content, to_entry_model_content.
Qed.

(** X13. The caller carries the conversation: when the history returned by
    one answered request is sent back with the next message and the provider
    answers again, the second reply's history is the first inbound history
    followed by both exchanges, in order. *)
Theorem two_exchanges_accumulate
    (upstream : Provider) (w : World) (h : list HistoryEntry) (m1 m2 : string)
    (r1 r2 : GenerateContentResponse) (reply1 reply2 : string) :
  answers upstream (globals w) {| message := m1; history := h |} r1 reply1 →
  ¬ signals_safety_block r1 →
  answers upstream (globals w)
    {| message := m2; history := h ++ [turn "user" m1; turn "model" reply1] |}
    r2 reply2 →
  ¬ signals_safety_block r2 →
  ∃ out1 w1 out2 w2,
    chat_with_sova upstream {| message := m1; history := h |} w = (Returned out1, w1)
    ∧ chat_with_sova upstream {| message := m2; history := out_history out1 |} w1
      = (Returned out2, w2)
    ∧ response out2 = reply2
    ∧ out_history out2
      = h ++ [turn "user" m1; turn "model" reply1; turn "user" m2; turn "model" reply2].
Proof.
  intros Ha1 Hb1 Ha2 Hb2.
  destruct (chat_answered upstream _ w r1 reply1 Ha1 Hb1) as (s0 & H1).
  eexists _, _. rewrite H1.
  edestruct (chat_answered upstream
               {| message := m2; history := h ++ [turn "user" m1; turn "model" reply1] |}
               (emit (SendMessage (session_history s0) m1)
                  (emit (StartChat (to_genai_history h)) w)) r2 reply2)
    as (s0' & H2); [done..|].
  eexists _, _. split; [done|]. cbn [out_history history message] in *.
  split; [apply H2|]. cbn [response out_history]. split; [done|].
  by rewrite <- app_assoc.
Qed.

Lemma two_exchanges_accumulate_witness :
  answers (scripted "ok" 1) (globals sample_world)
    {| message := "one"; history := [] |} (scripted_response "ok" 1) "ok"
  ∧ ¬ signals_safety_block (scripted_response "ok" 1)
  ∧ answers (scripted "ok" 1) (globals sample_world)
      {| message := "two"; history := [] ++ [turn "user" "one"; turn "model" "ok"] |}
      (scripted_response "ok" 1) "ok"
  ∧ ¬ signals_safety_block (scripted_response "ok" 1)
  ∧ ∃ out1 w1 out2 w2,
      chat_with_sova (scripted "ok" 1) {| message := "one"; history := [] |} sample_world
      = (Returned out1, w1)
      ∧ chat_with_sova (scripted "ok" 1)
          {| message := "two"; history := out_history out1 |} w1
        = (Returned out2, w2)
      ∧ response out2 = "ok"
      ∧ out_history out2
        = [] ++ [turn "user" "one"; turn "model" "ok"; turn "user" "two"; turn "model" "ok"].
Proof.
  assert (answers (scripted "ok" 1) (globals sample_world)
            {| message := "one"; history := [] |} (scripted_response "ok" 1) "ok") as Ha1.
  { eexists _, _. repeat split; reflexivity. }
  assert (¬ signals_safety_block (scripted_response "ok" 1)) as Hb.
  { intros (c & cs & Hc & Hf). injection Hc as <- _. discriminate Hf. }
  assert (answers (scripted "ok" 1) (globals sample_world)
            {| message := "two"; history := [] ++ [turn "user" "one"; turn "model" "ok"] |}
            (scripted_response "ok" 1) "ok") as Ha2.
  { eexists _, _. repeat split; reflexivity. }
  repeat (split; [assumption|]).
  exact (two_exchanges_accumulate _ _ _ _ _ _ _ _ _ Ha1 Hb Ha2 Hb).
Defined.

(** ** A refused exchange *)

(** X14. A refused exchange has still been sent: the provider received the
    caller's message, exactly one call was made, and nothing was printed. *)
Theorem blocked_exchange_costs_one_call
    (upstream : Provider) (request : ChatRequest) (w : World)
    (r : GenerateContentResponse) :
  responds upstream (globals w) request r →
  signals_safety_block r →
  outbound_calls (trace (snd (chat_with_sova upstream request w)))
  = (outbound_calls (trace w) + 1)%nat
  ∧ sent_messages (trace (snd (chat_with_sova upstream request w)))
    = sent_messages (trace w) ++ [message request]
  ∧ printed (trace (snd (chat_with_sova upstream request w))) = printed (trace w).
Proof.
  intros (s0 & s1 & H0 & H1) Hb. apply safety_blocked_spec in Hb.
  rewrite (chat_blocked upstream request w s0 s1 r) by done.
  unfold emit; cbn. rewrite <- app_assoc.
  rewrite outbound_calls_app, sent_messages_app, printed_app; cbn.
  by rewrite app_nil_r.
Qed.

Lemma blocked_exchange_costs_one_call_witness :
  responds (scripted "x" 4) (globals sample_world) sample_request (scripted_response "x" 4)
  ∧ signals_safety_block (scripted_response "x" 4)
  ∧ outbound_calls (trace (snd (chat_with_sova (scripted "x" 4) sample_request sample_world)))
    = (outbound_calls (trace sample_world) + 1)%nat
  ∧ sent_messages (trace (snd (chat_with_sova (scripted "x" 4) sample_request sample_world)))
    = sent_messages (trace sample_world) ++ [message sample_request]
  ∧ printed (trace (snd (chat_with_sova (scripted "x" 4) sample_request sample_world)))
    = printed (trace sample_world).
Proof.
  assert (responds (scripted "x" 4) (globals sample_world) sample_request
            (scripted_response "x" 4)) as Hr.
  { eexists _, _. split; reflexivity. }
  assert (signals_safety_block (scripted_response "x" 4)) as Hs.
  { eexists _, _. split; reflexivity. }
  repeat (split; [assumption|]).
  exact (blocked_exchange_costs_one_call _ _ _ _ Hr Hs).
Defined.

(** X15. A refused exchange leaves no turn behind: sending the history it
    returned with a next message is answered exactly as sending the original
    history with that message would have been. *)
Theorem blocked_exchange_leaves_no_turn
    (upstream : Provider) (w : World) (h : list HistoryEntry) (m1 m2 : string)
    (r : GenerateContentResponse) :
  responds upstream (globals w) {| message := m1; history := h |} r →
  signals_safety_block r →
  ∃ out1 w1,
    chat_with_sova upstream {| message := m1; history := h |} w = (Returned out1, w1)
    ∧ out_history out1 = h
    ∧ fst (chat_with_sova upstream {| message := m2; history := out_history out1 |} w1)
      = fst (chat_with_sova upstream {| message := m2; history := h |} w).
Proof.
  intros (s0 & s1 & H0 & H1) Hb. apply safety_blocked_spec in Hb.
  rewrite (chat_blocked upstream _ w s0 s1 r) by done.
  eexists _, _. split; [done|]. split; [done|].
  destruct w as [g t]. unfold emit; cbn.
  destruct (chat_with_sova_frame upstream g {| message := m2; history := h |})
    as (reply & evs & _ & _ & H).
  by rewrite !H.
Qed.

Lemma blocked_exchange_leaves_no_turn_witness :
  responds (scripted "x" 4) (globals sample_world)
    {| message := "one"; history := [turn "user" "a"; turn "model" "b"] |}
    (scripted_response "x" 4)
  ∧ signals_safety_block (scripted_response "x" 4)
  ∧ ∃ out1 w1,
      chat_with_sova (scripted "x" 4)
        {| message := "one"; history := [turn "user" "a"; turn "model" "b"] |} sample_world
      = (Returned out1, w1)
      ∧ out_history out1 = [turn "user" "a"; turn "model" "b"]
      ∧ fst (chat_with_sova (scripted "x" 4)
               {| message := "two"; history := out_history out1 |} w1)
        = fst (chat_with_sova (scripted "x" 4)
                 {| message := "two"; history := [turn "user" "a"; turn "model" "b"] |}
                 sample_world).
Proof.
  assert (responds (scripted "x" 4) (globals sample_world)
            {| message := "one"; history := [turn "user" "a"; turn "model" "b"] |}
            (scripted_response "x" 4)) as Hr.
  { eexists _, _. split; reflexivity. }
  assert (signals_safety_block (scripted_response "x" 4)) as Hs.
  { eexists _, _. split; reflexivity. }
  repeat (split; [assumption|]).
  exact (blocked_exchange_leaves_no_turn _ _ _ _ "two" _ Hr Hs).
Defined.
